(** * IoTaWatt sensor platform ([sensor.py]): model and verified properties

    The module maps the sensors polled from an IoTaWatt energy monitor to
    Home Assistant sensor entities.  This development embeds

    - the static table [ENTITY_DESCRIPTION_KEY_MAP] and the lookup done in
      [_create_entity];
    - the entity factory of [async_setup_entry] ([_create_entity],
      [new_data_received]) with its [created] tracking set;
    - the adapter class [IotaWattSensor]: [__init__], [_sensor_data],
      [name], [_handle_coordinator_update] and [native_value].

    Python floats are IEEE binary64 numbers and are modelled by Rocq's
    primitive floats; Python dicts and sets by stdpp's [gmap] and [gset]. *)

From Stdlib Require Import Floats.
From stdpp Require Import gmap strings list fin_maps.

Set Warnings "-inexact-float,-clear-no-such-hyp".

(* ===================================================================== *)
(** ** Python values, exceptions and effects *)
(* ===================================================================== *)

(** The values a sensor reading can hold: [None], a float, or a string. *)
Inductive pyval : Type :=
| PyNone
| PyFloat (x : float)
| PyStr (s : string).

Inductive exn : Type :=
| KeyError
| TypeError.

Inductive result (A : Type) : Type :=
| Ok (a : A)
| Raise (e : exn).
Arguments Ok {A} a.
Arguments Raise {A} e.

(** A computation over a mutable state [S] that may raise: the state it
    leaves behind is kept also when it raises, as in Python. *)
Definition prog (S A : Type) : Type := S → S * result A.

#[global] Instance prog_ret {S} : MRet (prog S) := λ A a s, (s, Ok a).
#[global] Instance prog_bind {S} : MBind (prog S) := λ A B f m s,
  match m s with
  | (s', Ok a) => f a s'
  | (s', Raise e) => (s', Raise e)
  end.

Definition lift {S A} (r : result A) : prog S A := λ s, (s, r).
Definition modify {S} (f : S → S) : prog S () := λ s, (f s, Ok ()).
Definition gets {S A} (f : S → A) : prog S A := λ s, (s, Ok (f s)).

(** Closing a goal by evaluation. *)
Ltac run := vm_compute; reflexivity.

(** [s * n] on a Python string. *)
Fixpoint str_repeat (s : string) (n : nat) : string :=
  match n with
  | O => ""
  | S n' => s +:+ str_repeat s n'
  end.

(** [value * 100]: float multiplication, string repetition, and a
    [TypeError] on [None]. *)
Definition py_mul_100 (value : pyval) : result pyval :=
  match value with
  | PyFloat x => Ok (PyFloat (PrimFloat.mul x 100%float))
  | PyStr s => Ok (PyStr (str_repeat s 100))
  | PyNone => Raise TypeError
  end.

(** [value < bound] and [value > bound] against a float bound: defined on
    floats, a [TypeError] on [None] and on strings. *)
Definition py_lt (value : pyval) (bound : float) : result bool :=
  match value with
  | PyFloat x => Ok (PrimFloat.ltb x bound)
  | _ => Raise TypeError
  end.

Definition py_gt (value : pyval) (bound : float) : result bool :=
  match value with
  | PyFloat x => Ok (PrimFloat.ltb bound x)
  | _ => Raise TypeError
  end.

(** Truth value of an optional string: [None] and the empty string are
    false. *)
Definition truthy (o : option string) : bool :=
  match o with
  | Some s => negb (String.eqb s "")
  | None => false
  end.

Definition is_number (v : pyval) : bool :=
  match v with
  | PyFloat _ => true
  | _ => false
  end.

(* ===================================================================== *)
(** ** External collaborators *)
(* ===================================================================== *)

(** The sensor object of the device client ([iotawattpy.sensor.Sensor]),
    by the accessors this module reads. *)
Record Sensor : Type := {
  getSensorID : option string;
  getName : string;
  getUnit : string;
  getValue : pyval;
  getType : string;
  getChannel : string;
  getBegin : option string;
  hub_mac_address : string;
}.

(** Symbolic constants of the host's [const] modules and of [.const]. *)
Inductive unit_of_measurement : Type :=
| AMPERE | HERTZ | PERCENTAGE | WATT | WATT_HOUR | VOLT_AMPERE
| VOLT_AMPERE_REACTIVE | VOLT_AMPERE_REACTIVE_HOURS | VOLT.

Inductive SensorStateClass : Type := MEASUREMENT | TOTAL.

Inductive SensorDeviceClass : Type :=
| CURRENT | FREQUENCY | POWER_FACTOR | POWER | ENERGY | APPARENT_POWER
| VOLTAGE.

(* ===================================================================== *)
(** ** The unit-to-metadata table *)
(* ===================================================================== *)

(** [IotaWattSensorEntityDescription]: the host's description fields this
    module sets, and the three fields the dataclass adds. *)
Record IotaWattSensorEntityDescription : Type := {
  key : string;
  native_unit_of_measurement : option unit_of_measurement;
  state_class : option SensorStateClass;
  device_class : option SensorDeviceClass;
  icon : option string;
  entity_registry_enabled_default : bool;
  value : option (pyval → result pyval);
  min_value : option float;
  max_value : option float;
}.

(** [IotaWattSensorEntityDescription(k)]: every other field at its default. *)
Definition default_description (k : string) : IotaWattSensorEntityDescription :=
  {| key := k;
     native_unit_of_measurement := None;
     state_class := None;
     device_class := None;
     icon := None;
     entity_registry_enabled_default := true;
     value := None;
     min_value := None;
     max_value := None |}.

Definition desc_Amps : IotaWattSensorEntityDescription :=
  {| key := "Amps";
     native_unit_of_measurement := Some AMPERE;
     state_class := Some MEASUREMENT;
     device_class := Some CURRENT;
     icon := None;
     entity_registry_enabled_default := false;
     value := None;
     min_value := Some (-1000)%float;
     max_value := Some 1000%float |}.

Definition desc_Hz : IotaWattSensorEntityDescription :=
  {| key := "Hz";
     native_unit_of_measurement := Some HERTZ;
     state_class := Some MEASUREMENT;
     device_class := Some FREQUENCY;
     icon := Some "mdi:flash";
     entity_registry_enabled_default := false;
     value := None;
     min_value := Some 0%float;
     max_value := Some 1000%float |}.

Definition desc_PF : IotaWattSensorEntityDescription :=
  {| key := "PF";
     native_unit_of_measurement := Some PERCENTAGE;
     state_class := Some MEASUREMENT;
     device_class := Some POWER_FACTOR;
     icon := None;
     entity_registry_enabled_default := false;
     value := Some py_mul_100;
     min_value := Some 0%float;
     max_value := Some 100%float |}.

Definition desc_Watts : IotaWattSensorEntityDescription :=
  {| key := "Watts";
     native_unit_of_measurement := Some WATT;
     state_class := Some MEASUREMENT;
     device_class := Some POWER;
     icon := None;
     entity_registry_enabled_default := true;
     value := None;
     min_value := Some (-100000)%float;
     max_value := Some 100000%float |}.

Definition desc_WattHours : IotaWattSensorEntityDescription :=
  {| key := "WattHours";
     native_unit_of_measurement := Some WATT_HOUR;
     state_class := Some TOTAL;
     device_class := Some ENERGY;
     icon := None;
     entity_registry_enabled_default := true;
     value := None;
     min_value := Some (-1000000)%float;
     max_value := Some 1000000%float |}.

Definition desc_VA : IotaWattSensorEntityDescription :=
  {| key := "VA";
     native_unit_of_measurement := Some VOLT_AMPERE;
     state_class := Some MEASUREMENT;
     device_class := Some APPARENT_POWER;
     icon := None;
     entity_registry_enabled_default := false;
     value := None;
     min_value := Some (-100000)%float;
     max_value := Some 100000%float |}.

Definition desc_VAR : IotaWattSensorEntityDescription :=
  {| key := "VAR";
     native_unit_of_measurement := Some VOLT_AMPERE_REACTIVE;
     state_class := Some MEASUREMENT;
     device_class := None;
     icon := Some "mdi:flash";
     entity_registry_enabled_default := false;
     value := None;
     min_value := Some (-100000)%float;
     max_value := Some 100000%float |}.

Definition desc_VARh : IotaWattSensorEntityDescription :=
  {| key := "VARh";
     native_unit_of_measurement := Some VOLT_AMPERE_REACTIVE_HOURS;
     state_class := Some MEASUREMENT;
     device_class := None;
     icon := Some "mdi:flash";
     entity_registry_enabled_default := false;
     value := None;
     min_value := Some (-1000000)%float;
     max_value := Some 1000000%float |}.

Definition desc_Volts : IotaWattSensorEntityDescription :=
  {| key := "Volts";
     native_unit_of_measurement := Some VOLT;
     state_class := Some MEASUREMENT;
     device_class := Some VOLTAGE;
     icon := None;
     entity_registry_enabled_default := false;
     value := None;
     min_value := Some 0%float;
     max_value := Some 1000%float |}.

(** The dict literal, entry by entry in source order. *)
Definition table_entries : list (string * IotaWattSensorEntityDescription) :=
  [ ("Amps", desc_Amps); ("Hz", desc_Hz); ("PF", desc_PF);
    ("Watts", desc_Watts); ("WattHours", desc_WattHours); ("VA", desc_VA);
    ("VAR", desc_VAR); ("VARh", desc_VARh); ("Volts", desc_Volts) ].

Definition ENTITY_DESCRIPTION_KEY_MAP
  : gmap string IotaWattSensorEntityDescription :=
  list_to_map table_entries.

(** [ENTITY_DESCRIPTION_KEY_MAP.get(unit, IotaWattSensorEntityDescription("base_sensor"))],
    the lookup of [_create_entity]. *)
Definition description_for (unit : string) : IotaWattSensorEntityDescription :=
  default (default_description "base_sensor") (ENTITY_DESCRIPTION_KEY_MAP !! unit).

(** The keys of the table, in source order. *)
Definition table_keys : list string := table_entries.*1.

(** The policy columns of a table entry: display unit, device class,
    transform, and the two bounds. *)
Definition policy (d : IotaWattSensorEntityDescription) :=
  (native_unit_of_measurement d, device_class d, value d,
   min_value d, max_value d).

(* ===================================================================== *)
(** ** Effects an adapter has on its host *)
(* ===================================================================== *)

Inductive limit : Type := BelowMinimum | AboveMaximum.

(** What an adapter method does besides returning: a line on the module's
    logger, or a call into the host framework. *)
Inductive event : Type :=
| Warning (value : pyval) (name : string) (which : limit)
    (* [_LOGGER.warning(f"Value {value} for {self.name} is ... limit. ...")] *)
| RegistryRemove (entity_id : option string)
    (* [er.async_get(self.hass).async_remove(self.entity_id)] *)
| RemoveTask
    (* [self.hass.async_create_task(self.async_remove())] *)
| BaseCoordinatorUpdate.
    (* [super()._handle_coordinator_update()] *)

Definition is_removal (e : event) : bool :=
  match e with
  | RegistryRemove _ | RemoveTask => true
  | _ => false
  end.

Definition is_warning (e : event) : bool :=
  match e with
  | Warning _ _ _ => true
  | _ => false
  end.

(** [_LOGGER.warning(...)]: one more entry at the end of the trace. *)
Definition warning (e : event) : prog (list event) () :=
  modify (λ trace, trace ++ [e]).

(** A comprehension [body(x) for x in xs if guard(x)]: the guard and the
    body run element by element, each on the state the previous left. *)
Fixpoint comprehension {S A B} (body : A → prog S B) (guard : A → prog S bool)
    (xs : list A) : prog S (list B) :=
  match xs with
  | [] => mret []
  | x :: xs' =>
      g ← guard x;
      if (g : bool) then
        y ← body x;
        ys ← comprehension body guard xs';
        mret (y :: ys)
      else comprehension body guard xs'
  end.

(** The host's [DeviceInfo], by the fields this module fills in;
    [CONNECTION_NETWORK_MAC] is the device registry's connection kind. *)
Inductive connection_kind : Type := CONNECTION_NETWORK_MAC.

#[global] Instance connection_kind_eq_dec : EqDecision connection_kind.
Proof. solve_decision. Defined.

#[global] Instance connection_kind_countable : Countable connection_kind.
Proof.
  by apply (inj_countable' (λ _, ()) (λ _, CONNECTION_NETWORK_MAC)); intros [].
Defined.

Record DeviceInfo : Type := {
  connections : gset (connection_kind * string);
  manufacturer : string;
  model : string;
}.

(** The coordinator's snapshot [coordinator.data["sensors"]]. *)
Abbreviation snapshot := (gmap string Sensor).

(* ===================================================================== *)
(** ** Concrete sensors and a concrete host, to run the model *)
(* ===================================================================== *)

(** A stand-in for the host's datetime support: a datetime is given by its
    epoch value, and the parser knows three ISO timestamps (the epoch, one
    day after it, and the start of 2021). *)
Definition demo_timestamp (d : float) : float := d.

Definition demo_parse_datetime (s : string) : option float :=
  if String.eqb s "1970-01-01T00:00:00+00:00" then Some 0%float
  else if String.eqb s "1970-01-02T00:00:00+00:00" then Some 86400%float
  else if String.eqb s "2021-01-01T00:00:00+00:00" then Some 1609459200%float
  else None.

Definition demo_sensor (id : option string) (unit : string) (reading : pyval)
    (begin : option string) : Sensor :=
  {| getSensorID := id;
     getName := "Main";
     getUnit := unit;
     getValue := reading;
     getType := "Input";
     getChannel := "1";
     getBegin := begin;
     hub_mac_address := "aa:bb:cc:dd:ee:ff" |}.

(** A snapshot with the one sensor [input_1]. *)
Definition demo_snapshot (id : option string) (unit : string) (reading : pyval)
    (begin : option string) : snapshot :=
  {[ "input_1" := demo_sensor id unit reading begin ]}.

(** A snapshot from which every sensor is gone. *)
Definition no_sensors : snapshot := ∅.

Definition year_2021 : string := "2021-01-01T00:00:00+00:00".
Definition day_two : string := "1970-01-02T00:00:00+00:00".

Section Platform.

#[local] Set Default Proof Using "Type".

(** The host's datetime support: the [datetime] type with its
    [timestamp()] method, and [homeassistant.util.dt.parse_datetime],
    which answers [None] on a string it cannot parse. *)
Context {datetime : Type}.
Context (parse_datetime : string → option datetime).
Context (timestamp : datetime → float).

(* ------------------------------------------------------------------- *)
(** *** The adapter entity [IotaWattSensor] *)
(* ------------------------------------------------------------------- *)

(** The attributes this module reads or writes.  [entity_id] is given by
    the host when the entity is registered; [_attr_last_reset] is unset
    ([None]) until [_handle_coordinator_update] writes it. *)
Record IotaWattSensor : Type := {
  _key : string;
  _attr_unique_id : option string;
  entity_description : IotaWattSensorEntityDescription;
  _attr_last_reset : option datetime;
  entity_id : option string;
}.

Definition set_attr_last_reset (v : option datetime) (self : IotaWattSensor)
  : IotaWattSensor :=
  {| _key := _key self;
     _attr_unique_id := _attr_unique_id self;
     entity_description := entity_description self;
     _attr_last_reset := v;
     entity_id := entity_id self |}.

(** [self.coordinator.data["sensors"][key]]. *)
Definition sensor_lookup (sensors : snapshot) (k : string) : result Sensor :=
  match sensors !! k with
  | Some data => Ok data
  | None => Raise KeyError
  end.

Definition _sensor_data (sensors : snapshot) (self : IotaWattSensor)
  : result Sensor :=
  sensor_lookup sensors (_key self).

Definition name (sensors : snapshot) (self : IotaWattSensor) : result string :=
  match _sensor_data sensors self with
  | Ok data => Ok (getName data)
  | Raise e => Raise e
  end.

(** [IotaWattSensor.__init__]. *)
Definition __init__ (sensors : snapshot) (k : string)
    (description : IotaWattSensorEntityDescription) : result IotaWattSensor :=
  match sensor_lookup sensors k with
  | Ok data =>
      Ok {| _key := k;
            _attr_unique_id := getSensorID data;
            entity_description := description;
            _attr_last_reset := None;
            entity_id := None |}
  | Raise e => Raise e
  end.

(** The reading after the description's optional transform
    ([if func := self.entity_description.value: value = func(value)]). *)
Definition transformed (description : IotaWattSensorEntityDescription)
    (raw : pyval) : result pyval :=
  match value description with
  | Some func => func raw
  | None => Ok raw
  end.

(** [IotaWattSensor.native_value]; the state is the trace of events. *)
Definition native_value (sensors : snapshot) (self : IotaWattSensor)
  : prog (list event) pyval :=
  data ← lift (_sensor_data sensors self);
  value ← lift (transformed (entity_description self) (getValue data));
  below ← match min_value (entity_description self) with
           | Some lo => lift (py_lt value lo)
           | None => mret false
           end;
  if (below : bool) then
    n ← lift (name sensors self);
    warning (Warning value n BelowMinimum);;
    mret PyNone
  else
    above ← match max_value (entity_description self) with
             | Some hi => lift (py_gt value hi)
             | None => mret false
             end;
    if (above : bool) then
      n ← lift (name sensors self);
      warning (Warning value n AboveMaximum);;
      mret PyNone
    else mret value.

(** The bounds check on a transformed reading [v] of the sensor [data]. *)
Definition checked (description : IotaWattSensorEntityDescription)
    (data : Sensor) (v : pyval) (trace : list event)
  : list event * result pyval :=
  match
    match min_value description with
    | Some lo => py_lt v lo
    | None => Ok false
    end
  with
  | Raise e => (trace, Raise e)
  | Ok true => (trace ++ [Warning v (getName data) BelowMinimum], Ok PyNone)
  | Ok false =>
      match
        match max_value description with
        | Some hi => py_gt v hi
        | None => Ok false
        end
      with
      | Raise e => (trace, Raise e)
      | Ok true => (trace ++ [Warning v (getName data) AboveMaximum], Ok PyNone)
      | Ok false => (trace, Ok v)
      end
  end.

(** [IotaWattSensor._handle_coordinator_update]: the adapter after the
    notification and the calls it made, in order. *)
Definition _handle_coordinator_update (sensors : snapshot)
    (self : IotaWattSensor) : IotaWattSensor * list event :=
  match sensors !! _key self with
  | None =>
      if truthy (_attr_unique_id self)
      then (self, [RegistryRemove (entity_id self)])
      else (self, [RemoveTask])
  | Some data =>
      let self' :=
        match getBegin data with
        | Some begin =>
            if truthy (Some begin) then
              match parse_datetime begin with
              | Some last_reset =>
                  if PrimFloat.ltb 86400%float (timestamp last_reset)
                  then set_attr_last_reset (Some last_reset) self
                  else set_attr_last_reset None self
              | None => self
              end
            else self
        | None => self
        end in
      (self', [BaseCoordinatorUpdate])
  end.


(* ------------------------------------------------------------------- *)
(** *** The entity factory of [async_setup_entry] *)
(* ------------------------------------------------------------------- *)

(** The closure's [created] set, and the batches handed to the host's
    [async_add_entities], one per call, oldest first. *)
Record factory : Type := {
  created : gset string;
  added : list (list IotaWattSensor);
}.

Definition created_add (k : string) (st : factory) : factory :=
  {| created := {[k]} ∪ created st; added := added st |}.

Definition async_add_entities (entities : list IotaWattSensor)
  : prog factory () :=
  modify (λ st, {| created := created st; added := added st ++ [entities] |}).

(** Every adapter handed to the host so far. *)
Definition adapters (st : factory) : list IotaWattSensor := concat (added st).

Definition _create_entity (sensors : snapshot) (k : string)
  : prog factory IotaWattSensor :=
  modify (created_add k);;
  data ← lift (sensor_lookup sensors k);
  let description := description_for (getUnit data) in
  lift (__init__ sensors k description).

(** Iterating over the dict yields each of its keys once. *)
Definition keys (sensors : snapshot) : list string := (map_to_list sensors).*1.

Definition not_in_created (k : string) : prog factory bool :=
  gets (λ st, bool_decide (k ∉ created st)).

(** The body of [async_setup_entry], from [created = set()] on; the
    host is taken to drain the generator it is given during the call. *)
Definition async_setup_entry (sensors : snapshot) : factory * result () :=
  (entities ← comprehension (_create_entity sensors) (λ _, mret true)
                (keys sensors);
   async_add_entities entities)
    {| created := ∅; added := [] |}.

Definition new_data_received (sensors : snapshot) : prog factory () :=
  entities ← comprehension (_create_entity sensors) not_in_created
               (keys sensors);
  async_add_entities entities.

(** The listener called once per snapshot of a list, in order; stops at
    the first call that raises. *)
Fixpoint notifications (snaps : list snapshot) : prog factory () :=
  match snaps with
  | [] => mret ()
  | sensors :: rest => new_data_received sensors;; notifications rest
  end.

(** Every adapter handed to the host has its key in [created], and no two
    of them have the same key. *)
Definition keys_tracked (st : factory) : Prop :=
  NoDup (_key <$> adapters st)
  ∧ ∀ self, self ∈ adapters st → _key self ∈ created st.

(** The adapter of [input_1] for a sensor reporting [unit], registered by
    the host as [sensor.main]. *)
Definition demo_adapter (id : option string) (unit : string)
    (last_reset : option datetime) : IotaWattSensor :=
  {| _key := "input_1";
     _attr_unique_id := id;
     entity_description := description_for unit;
     _attr_last_reset := last_reset;
     entity_id := Some "sensor.main" |}.

(* ------------------------------------------------------------------- *)
(** *** The remaining properties of the adapter, and its update loop *)
(* ------------------------------------------------------------------- *)

(** [IotaWattSensor.device_info]. *)
Definition device_info (sensors : snapshot) (self : IotaWattSensor)
  : result DeviceInfo :=
  match _sensor_data sensors self with
  | Ok data =>
      Ok {| connections := {[ (CONNECTION_NETWORK_MAC, hub_mac_address data) ]};
            manufacturer := "IoTaWatt";
            model := "IoTaWatt" |}
  | Raise e => Raise e
  end.

(** [IotaWattSensor.extra_state_attributes]: the dict starts with the
    type, is read back at ["type"], and gets the channel of an input. *)
Definition extra_state_attributes (sensors : snapshot) (self : IotaWattSensor)
  : result (gmap string string) :=
  match _sensor_data sensors self with
  | Ok data =>
      let attrs : gmap string string := {[ "type" := getType data ]} in
      match attrs !! "type" with
      | Some type =>
          if String.eqb type "Input"
          then Ok (<["channel" := getChannel data]> attrs)
          else Ok attrs
      | None => Raise KeyError
      end
  | Raise e => Raise e
  end.

(** The coordinator calling the adapter's update handler once per
    snapshot of a list, in order: the adapter after the last call and
    every call made on the way. *)
Fixpoint coordinator_updates (snaps : list snapshot) (self : IotaWattSensor)
  : IotaWattSensor * list event :=
  match snaps with
  | [] => (self, [])
  | sensors :: rest =>
      let '(self', events) := _handle_coordinator_update sensors self in
      let '(self'', events') := coordinator_updates rest self' in
      (self'', events ++ events')
  end.

(** A last-reset marker that is unset or lies more than a day after the
    epoch. *)
Definition marker_ok (self : IotaWattSensor) : Prop :=
  match _attr_last_reset self with
  | Some last_reset => PrimFloat.ltb 86400%float (timestamp last_reset) = true
  | None => True
  end.

(** The adapter [__init__] builds for the sensor [data] under key [k]
    with the description the table has for the sensor's unit. *)
Definition adapter_of (k : string) (data : Sensor) : IotaWattSensor :=
  {| _key := k;
     _attr_unique_id := getSensorID data;
     entity_description := description_for (getUnit data);
     _attr_last_reset := None;
     entity_id := None |}.

(** An adapter that is the one built from the snapshot's entry at its
    key. *)
Definition created_from (sensors : snapshot) (self : IotaWattSensor) : Prop :=
  ∃ data, sensors !! _key self = Some data ∧ self = adapter_of (_key self) data.

(* ===================================================================== *)
(** ** Ordering facts on binary64 floats *)
(* ===================================================================== *)

Lemma SFcompare_swap (a b : spec_float) :
  SFcompare b a = option_map CompOpp (SFcompare a b).
Proof.
  destruct a as [sa|sa| |sa ma ea], b as [sb|sb| |sb mb eb]; simpl;
    try reflexivity; try (destruct sa; reflexivity);
    try (destruct sb; reflexivity);
    try (destruct sa, sb; reflexivity).
  f_equal.
  rewrite (Z.compare_antisym eb ea).
  change (PosDef.Pos.compare_cont Eq mb ma) with (Pos.compare mb ma).
  change (PosDef.Pos.compare_cont Eq ma mb) with (Pos.compare ma mb).
  rewrite (Pos.compare_antisym mb ma).
  destruct sa, sb; simpl; try reflexivity;
    destruct (eb ?= ea)%Z; simpl; try reflexivity;
    destruct (mb ?= ma)%positive; reflexivity.
Qed.

(** [x <= y] excludes [y < x]. *)
Lemma float_leb_not_gt (x y : float) :
  PrimFloat.leb x y = true → PrimFloat.ltb y x = false.
Proof.
  rewrite leb_spec, ltb_spec. unfold SFleb, SFltb.
  rewrite (SFcompare_swap (Prim2SF x) (Prim2SF y)).
  destruct (SFcompare (Prim2SF x) (Prim2SF y)) as [[]|]; simpl; congruence.
Qed.

(** [x < y] excludes [y <= x] and [y < x]. *)
Lemma float_ltb_not_ge (x y : float) :
  PrimFloat.ltb x y = true → PrimFloat.leb y x = false.
Proof.
  rewrite leb_spec, ltb_spec. unfold SFleb, SFltb.
  rewrite (SFcompare_swap (Prim2SF x) (Prim2SF y)).
  destruct (SFcompare (Prim2SF x) (Prim2SF y)) as [[]|]; simpl; congruence.
Qed.

(* ===================================================================== *)
(** ** Properties of the table lookup *)
(* ===================================================================== *)

Lemma table_lookup_None (unit : string) :
  unit ∉ table_keys → ENTITY_DESCRIPTION_KEY_MAP !! unit = None.
Proof.
  intros Hnot. unfold ENTITY_DESCRIPTION_KEY_MAP.
  apply not_elem_of_list_to_map_1. exact Hnot.
Qed.

Example description_for_Amps : description_for "Amps" = desc_Amps.
Proof. vm_compute. reflexivity. Qed.
Example description_for_amps : description_for "amps" = default_description "base_sensor".
Proof. vm_compute. reflexivity. Qed.

(** C2. The lookup done when an adapter is created returns, for each of
    the nine table keys, the entry the table lists for it, with the display
    unit, device class, transform and inclusive bounds of the table; for
    every string that is not one of the nine keys it returns the fallback
    description, which has no unit, no device class, no bounds and no
    transform.  The match is exact: a key in another case or with a blank
    around it is not found. *)
Theorem description_for_table (unit : string) :
  table_keys
  = ["Amps"; "Hz"; "PF"; "Watts"; "WattHours"; "VA"; "VAR"; "VARh"; "Volts"]
  ∧ Forall (λ entry, description_for entry.1 = entry.2) table_entries
  ∧ (λ k, (k, policy (description_for k))) <$> table_keys
    = [ ("Amps", (Some AMPERE, Some CURRENT, None,
                  Some (-1000)%float, Some 1000%float));
        ("Hz", (Some HERTZ, Some FREQUENCY, None,
                Some 0%float, Some 1000%float));
        ("PF", (Some PERCENTAGE, Some POWER_FACTOR, Some py_mul_100,
                Some 0%float, Some 100%float));
        ("Watts", (Some WATT, Some POWER, None,
                   Some (-100000)%float, Some 100000%float));
        ("WattHours", (Some WATT_HOUR, Some ENERGY, None,
                       Some (-1000000)%float, Some 1000000%float));
        ("VA", (Some VOLT_AMPERE, Some APPARENT_POWER, None,
                Some (-100000)%float, Some 100000%float));
        ("VAR", (Some VOLT_AMPERE_REACTIVE, None, None,
                 Some (-100000)%float, Some 100000%float));
        ("VARh", (Some VOLT_AMPERE_REACTIVE_HOURS, None, None,
                  Some (-1000000)%float, Some 1000000%float));
        ("Volts", (Some VOLT, Some VOLTAGE, None,
                   Some 0%float, Some 1000%float)) ]
  ∧ (∀ x, py_mul_100 (PyFloat x) = Ok (PyFloat (PrimFloat.mul x 100%float)))
  ∧ (unit ∉ table_keys →
     description_for unit = default_description "base_sensor")
  ∧ policy (default_description "base_sensor") = (None, None, None, None, None)
  ∧ description_for "amps" = default_description "base_sensor"
  ∧ description_for "AMPS" = default_description "base_sensor"
  ∧ description_for " Amps" = default_description "base_sensor"
  ∧ description_for "Amps " = default_description "base_sensor".
Proof.
  split; [reflexivity|].
  split; [repeat constructor; vm_compute; reflexivity|].
  split; [vm_compute; reflexivity|].
  split; [reflexivity|].
  split.
  - intros Hnot. unfold description_for.
    rewrite (table_lookup_None unit Hnot). reflexivity.
  - repeat split; vm_compute; reflexivity.
Qed.

(* ===================================================================== *)
(** ** Properties of [native_value] *)
(* ===================================================================== *)

(** With the key in the snapshot, a read is the transform followed by the
    bounds check. *)
Lemma native_value_unfold (sensors : snapshot) (self : IotaWattSensor)
    (data : Sensor) (trace : list event) :
  sensors !! _key self = Some data →
  native_value sensors self trace
  = match transformed (entity_description self) (getValue data) with
    | Ok v => checked (entity_description self) data v trace
    | Raise e => (trace, Raise e)
    end.
Proof.
  intros Hkey.
  unfold native_value, checked, name, _sensor_data, sensor_lookup.
  unfold mbind, prog_bind, mret, prog_ret, lift, warning, modify.
  rewrite Hkey.
  destruct (transformed (entity_description self) (getValue data)) as [v|e];
    [|reflexivity].
  destruct (min_value (entity_description self)) as [lo|].
  - destruct (py_lt v lo) as [[|]|e]; try reflexivity.
    destruct (max_value (entity_description self)) as [hi|]; [|reflexivity].
    destruct (py_gt v hi) as [[|]|e]; reflexivity.
  - destruct (max_value (entity_description self)) as [hi|]; [|reflexivity].
    destruct (py_gt v hi) as [[|]|e]; reflexivity.
Qed.

(** C1. For an adapter whose description has both bounds and whose
    transformed reading is the number [x]: when [lo <= x <= hi] the read
    returns [x] and logs nothing, so a reading equal to a bound is
    reported; when [x < lo] or [x > hi] the read returns [None] and adds
    exactly one entry to the log, a warning.  In both cases the read
    returns normally and makes no call that would remove the entity. *)
Theorem native_value_bounds (sensors : snapshot) (self : IotaWattSensor)
    (data : Sensor) (x lo hi : float) (trace : list event) :
  sensors !! _key self = Some data →
  transformed (entity_description self) (getValue data) = Ok (PyFloat x) →
  min_value (entity_description self) = Some lo →
  max_value (entity_description self) = Some hi →
  (PrimFloat.leb lo x = true → PrimFloat.leb x hi = true →
   native_value sensors self trace = (trace, Ok (PyFloat x)))
  ∧ (PrimFloat.ltb x lo = true ∨ PrimFloat.ltb hi x = true →
     ∃ which,
       native_value sensors self trace
       = (trace ++ [Warning (PyFloat x) (getName data) which], Ok PyNone)).
Proof.
  intros Hkey Hval Hlo Hhi.
  rewrite (native_value_unfold sensors self data trace Hkey), Hval.
  unfold checked. rewrite Hlo, Hhi. simpl.
  split.
  - intros Hge Hle.
    rewrite (float_leb_not_gt lo x Hge), (float_leb_not_gt x hi Hle).
    reflexivity.
  - intros Hout.
    destruct (PrimFloat.ltb x lo) eqn:Hbelow; [by exists BelowMinimum|].
    destruct Hout as [Hout|Hout]; [discriminate|].
    rewrite Hout. by exists AboveMaximum.
Qed.

(** C5. For an adapter with the PF description the bounds are checked on
    the reading multiplied by 100: a raw [x] is reported as [x * 100] when
    that product lies in [0, 100] and is suppressed otherwise.  Raw 0.5 is
    reported as 50, raw 1.0 as 100, and raw 1.2, whose product is 120, is
    suppressed with one warning although 1.2 itself lies within the
    bounds. *)
Theorem native_value_power_factor (sensors : snapshot) (self : IotaWattSensor)
    (data : Sensor) (x : float) (trace : list event) :
  sensors !! _key self = Some data →
  entity_description self = desc_PF →
  getValue data = PyFloat x →
  native_value sensors self trace
  = checked desc_PF data (PyFloat (PrimFloat.mul x 100%float)) trace
  ∧ (x = 0.5%float →
     native_value sensors self trace = (trace, Ok (PyFloat 50%float)))
  ∧ (x = 1%float →
     native_value sensors self trace = (trace, Ok (PyFloat 100%float)))
  ∧ (x = 1.2%float →
     PrimFloat.leb 0%float x = true ∧ PrimFloat.leb x 100%float = true
     ∧ native_value sensors self trace
       = (trace ++ [Warning (PyFloat 120%float) (getName data) AboveMaximum],
          Ok PyNone)).
Proof.
  intros Hkey Hdesc Hraw.
  rewrite (native_value_unfold sensors self data trace Hkey), Hdesc, Hraw.
  change (transformed desc_PF (PyFloat x))
    with (Ok (A:=pyval) (PyFloat (PrimFloat.mul x 100%float))).
  split; [reflexivity|].
  split; [|split]; intros ->; vm_compute; auto.
Qed.

(** C9. The read returns normally only on numbers.  When the transformed
    reading is not a number ([None] or a string) and the description has a
    min or a max bound, the comparison against the bound raises
    [TypeError]: nothing is returned and nothing is logged.  When the
    transformed reading is a number the read does not raise. *)
Theorem native_value_numeric_only (sensors : snapshot) (self : IotaWattSensor)
    (data : Sensor) (v : pyval) (trace : list event) :
  sensors !! _key self = Some data →
  transformed (entity_description self) (getValue data) = Ok v →
  (is_number v = false →
   is_Some (min_value (entity_description self))
   ∨ is_Some (max_value (entity_description self)) →
   native_value sensors self trace = (trace, Raise TypeError))
  ∧ (is_number v = true →
     ∃ trace' r, native_value sensors self trace = (trace', Ok r)).
Proof.
  intros Hkey Hval.
  rewrite (native_value_unfold sensors self data trace Hkey), Hval.
  unfold checked. split.
  - intros Hnum Hbound.
    destruct v as [|x|s]; [|discriminate|]; simpl;
      destruct (min_value (entity_description self)) as [lo|];
      try reflexivity;
      destruct (max_value (entity_description self)) as [hi|];
      try reflexivity;
      destruct Hbound as [[? [=]]|[? [=]]].
  - intros Hnum. destruct v as [|x|s]; try discriminate. simpl.
    destruct (min_value (entity_description self)) as [lo|];
      [destruct (PrimFloat.ltb x lo); [eauto|]|];
      (destruct (max_value (entity_description self)) as [hi|];
       [destruct (PrimFloat.ltb hi x); eauto|eauto]).
Qed.

(* ===================================================================== *)
(** ** Properties of [_handle_coordinator_update] *)
(* ===================================================================== *)




(** C8. When the snapshot no longer has the adapter's key, the
    notification makes exactly one call, a removal: the entity-registry
    removal when the adapter's unique id is set (and not empty), the
    self-removal task otherwise.  It then returns: the adapter, and so its
    last-reset marker, is unchanged and the base-class update is not
    called. *)
Theorem handle_update_key_gone (sensors : snapshot) (self : IotaWattSensor) :
  sensors !! _key self = None →
  ∃ removal,
    _handle_coordinator_update sensors self = (self, [removal])
    ∧ is_removal removal = true
    ∧ removal ≠ BaseCoordinatorUpdate
    ∧ (truthy (_attr_unique_id self) = true →
       removal = RegistryRemove (entity_id self))
    ∧ (truthy (_attr_unique_id self) = false → removal = RemoveTask).
Proof.
  intros Hkey. unfold _handle_coordinator_update. rewrite Hkey.
  destruct (truthy (_attr_unique_id self)); eexists; repeat split;
    try reflexivity; try discriminate.
Qed.

(** C10. The unique id of an adapter is the id its sensor reported when
    the adapter was constructed, whatever it is.  When that id was [None]
    or the empty string and the key later leaves the snapshot, the
    notification takes the self-removal path, not the registry removal;
    this holds also after the host gave the entity its [entity_id]. *)
Theorem removal_by_truthiness (sensors later : snapshot) (k : string)
    (description : IotaWattSensorEntityDescription) (data : Sensor) :
  sensors !! k = Some data →
  ∃ self,
    __init__ sensors k description = Ok self
    ∧ _key self = k
    ∧ _attr_unique_id self = getSensorID data
    ∧ (getSensorID data = None ∨ getSensorID data = Some "" →
       later !! k = None →
       ∀ self',
         _key self' = _key self →
         _attr_unique_id self' = _attr_unique_id self →
         _handle_coordinator_update later self' = (self', [RemoveTask])).
Proof.
  intros Hkey. unfold __init__, sensor_lookup. rewrite Hkey.
  eexists. split; [reflexivity|]. simpl. repeat split.
  intros Hid Hgone self' Hk Huid.
  unfold _handle_coordinator_update. rewrite Hk, Hgone, Huid.
  by destruct Hid as [->| ->].
Qed.

(* ===================================================================== *)
(** ** Properties of the entity factory *)
(* ===================================================================== *)

Lemma bind_Ok {S A B} (m : prog S A) (f : A → prog S B) (s s' : S) (a : A) :
  m s = (s', Ok a) → (m ≫= f) s = f a s'.
Proof. unfold mbind, prog_bind. by intros ->. Qed.

Lemma keys_lookup (sensors : snapshot) (k : string) :
  k ∈ keys sensors ↔ is_Some (sensors !! k).
Proof.
  unfold keys. rewrite list_elem_of_fmap. split.
  - intros ([k' data] & -> & Hin). apply elem_of_map_to_list in Hin. eauto.
  - intros [data Hdata]. exists (k, data). split; [done|].
    by apply elem_of_map_to_list.
Qed.

Lemma keys_dom (sensors : snapshot) (k : string) :
  k ∈ keys sensors ↔ k ∈ dom sensors.
Proof. by rewrite keys_lookup, elem_of_dom. Qed.

Lemma keys_NoDup (sensors : snapshot) : NoDup (keys sensors).
Proof. apply NoDup_fst_map_to_list. Qed.

(** Creating the adapter of a key of the snapshot: the key enters
    [created], nothing is handed to the host yet, and the adapter carries
    the key. *)
Lemma create_entity_run (sensors : snapshot) (k : string) (st : factory) :
  is_Some (sensors !! k) →
  ∃ self,
    _create_entity sensors k st = (created_add k st, Ok self) ∧ _key self = k.
Proof.
  intros [data Hdata].
  unfold _create_entity, __init__, sensor_lookup.
  unfold mbind, prog_bind, modify, lift. rewrite Hdata. simpl.
  eexists. split; reflexivity.
Qed.

(** The comprehension of [new_data_received] on keys of the snapshot. *)
Lemma comprehension_new (sensors : snapshot) (ks : list string) :
  Forall (λ k, is_Some (sensors !! k)) ks →
  ∀ st, ∃ st' es,
    comprehension (_create_entity sensors) not_in_created ks st = (st', Ok es)
    ∧ created st' = list_to_set ks ∪ created st
    ∧ added st' = added st
    ∧ NoDup (_key <$> es)
    ∧ (∀ k, k ∈ _key <$> es ↔ k ∈ ks ∧ k ∉ created st).
Proof.
  clear parse_datetime timestamp.
  induction 1 as [|k ks Hk _ IH]; intros st.
  - exists st, []. simpl.
    split_and!; [done|set_solver|done|constructor|set_solver].
  - simpl. unfold mbind at 1, prog_bind at 1, not_in_created, gets.
    destruct (decide (k ∈ created st)) as [Hin|Hnew].
    + rewrite bool_decide_eq_false_2 by (by intros ?).
      destruct (IH st) as (st' & es & Hrun & Hc & Ha & Hnd & Hmem).
      exists st', es. split_and!; [done|set_solver|done|done|].
      intros k'. rewrite Hmem. set_solver.
    + rewrite bool_decide_eq_true_2 by done.
      destruct (create_entity_run sensors k st Hk) as (self & Hself & Hkey).
      destruct (IH (created_add k st))
        as (st' & es & Hrun & Hc & Ha & Hnd & Hmem).
      exists st', (self :: es).
      rewrite (bind_Ok _ _ _ _ _ Hself), (bind_Ok _ _ _ _ _ Hrun).
      simpl in Hc, Ha, Hmem. rewrite fmap_cons, Hkey.
      split_and!; [done|set_solver|done| |].
      * constructor; [|done]. rewrite Hmem. set_solver.
      * intros k'. rewrite elem_of_cons, Hmem.
        destruct (decide (k' = k)) as [->|Hne]; set_solver.
Qed.

(** The generator of [async_setup_entry] on keys of the snapshot. *)
Lemma comprehension_all (sensors : snapshot) (ks : list string) :
  Forall (λ k, is_Some (sensors !! k)) ks →
  ∀ st, ∃ st' es,
    comprehension (_create_entity sensors) (λ _, mret true) ks st
    = (st', Ok es)
    ∧ created st' = list_to_set ks ∪ created st
    ∧ added st' = added st
    ∧ _key <$> es = ks.
Proof.
  clear parse_datetime timestamp.
  induction 1 as [|k ks Hk _ IH]; intros st.
  - exists st, []. simpl. split_and!; [done|set_solver|done|done].
  - simpl. unfold mbind at 1, prog_bind at 1, mret at 1, prog_ret at 1.
    destruct (create_entity_run sensors k st Hk) as (self & Hself & Hkey).
    destruct (IH (created_add k st)) as (st' & es & Hrun & Hc & Ha & Hkeys).
    exists st', (self :: es).
    rewrite (bind_Ok _ _ _ _ _ Hself), (bind_Ok _ _ _ _ _ Hrun).
    simpl in Hc, Ha. rewrite fmap_cons, Hkey, Hkeys.
    split_and!; [done|set_solver|done|done].
Qed.

(** With every key already in [created] the comprehension of
    [new_data_received] creates nothing and leaves the factory as it is. *)
Lemma comprehension_nothing_new (sensors : snapshot) (ks : list string)
    (st : factory) :
  (∀ k, k ∈ ks → k ∈ created st) →
  comprehension (_create_entity sensors) not_in_created ks st = (st, Ok []).
Proof.
  clear parse_datetime timestamp.
  induction ks as [|k ks IH]; intros Hall; [reflexivity|].
  simpl. unfold mbind at 1, prog_bind at 1, not_in_created, gets.
  rewrite bool_decide_eq_false_2 by (intros Hk; apply Hk, Hall; set_solver).
  apply IH. intros k' Hk'. apply Hall. set_solver.
Qed.

Lemma keys_Forall (sensors : snapshot) :
  Forall (λ k, is_Some (sensors !! k)) (keys sensors).
Proof. apply Forall_forall. intros k. by rewrite keys_lookup. Qed.

(** A notification returns normally, adds the keys of the snapshot to
    [created], and hands the host one batch: an adapter per key of the
    snapshot that was not in [created], each once. *)
Lemma new_data_received_run (sensors : snapshot) (st : factory) :
  ∃ es,
    new_data_received sensors st
    = ({| created := dom sensors ∪ created st; added := added st ++ [es] |},
       Ok ())
    ∧ NoDup (_key <$> es)
    ∧ (∀ k, k ∈ _key <$> es ↔ k ∈ dom sensors ∧ k ∉ created st).
Proof.
  destruct (comprehension_new sensors (keys sensors) (keys_Forall sensors) st)
    as (st' & es & Hrun & Hc & Ha & Hnd & Hmem).
  exists es. unfold new_data_received.
  rewrite (bind_Ok _ _ _ _ _ Hrun). unfold async_add_entities, modify.
  rewrite Hc, Ha.
  assert (list_to_set (keys sensors) = dom sensors :> gset string) as ->.
  { apply set_eq. intros k. by rewrite elem_of_list_to_set, keys_dom. }
  split_and!; [done|done|].
  intros k. by rewrite Hmem, keys_dom.
Qed.

(** C6. A second notification with an unchanged key set creates no
    adapter.  Whatever the factory's state, a notification hands the host
    adapters exactly for the keys of the snapshot that are not in
    [created]; after it, a notification for a snapshot with the same keys
    hands the host an empty batch and leaves [created] and the adapters
    as they are. *)
Theorem new_data_received_idempotent (sensors sensors' : snapshot)
    (st : factory) :
  dom sensors' = dom sensors →
  ∃ st1 es,
    new_data_received sensors st = (st1, Ok ())
    ∧ added st1 = added st ++ [es]
    ∧ (∀ k, k ∈ _key <$> es ↔ k ∈ dom sensors ∧ k ∉ created st)
    ∧ new_data_received sensors' st1
      = ({| created := created st1; added := added st1 ++ [[]] |}, Ok ())
    ∧ adapters (new_data_received sensors' st1).1 = adapters st1.
Proof.
  clear parse_datetime timestamp.
  intros Hdom.
  destruct (new_data_received_run sensors st) as (es & Hrun & _ & Hmem).
  eexists _, es. split; [exact Hrun|].
  split; [reflexivity|]. split; [exact Hmem|].
  match goal with |- ?P ∧ _ => assert P as Hsecond end.
  { unfold new_data_received.
    erewrite bind_Ok; [reflexivity|].
    apply comprehension_nothing_new. intros k Hk. simpl.
    apply keys_dom in Hk. rewrite Hdom in Hk. set_solver. }
  split; [exact Hsecond|].
  rewrite Hsecond. unfold adapters. simpl.
  by rewrite concat_app, app_nil_r.
Qed.

Lemma async_setup_entry_tracked (sensors : snapshot) :
  ∃ st, async_setup_entry sensors = (st, Ok ()) ∧ keys_tracked st.
Proof.
  unfold async_setup_entry.
  destruct (comprehension_all sensors (keys sensors) (keys_Forall sensors)
              {| created := ∅; added := [] |})
    as (st' & es & Hrun & Hc & Ha & Hkeys).
  eexists. split.
  { rewrite (bind_Ok _ _ _ _ _ Hrun). reflexivity. }
  unfold keys_tracked, adapters. simpl. rewrite Ha. simpl.
  rewrite app_nil_r, Hkeys. split; [apply keys_NoDup|].
  intros self Hself. rewrite Hc.
  apply elem_of_union_l, elem_of_list_to_set. rewrite <- Hkeys.
  by apply list_elem_of_fmap_2.
Qed.

Lemma new_data_received_tracked (sensors : snapshot) (st : factory) :
  keys_tracked st →
  ∃ st', new_data_received sensors st = (st', Ok ()) ∧ keys_tracked st'.
Proof.
  intros [Hnd Hin].
  destruct (new_data_received_run sensors st) as (es & Hrun & Hes & Hmem).
  eexists. split; [exact Hrun|].
  unfold keys_tracked, adapters in *. simpl.
  rewrite concat_app. simpl. rewrite app_nil_r. split.
  - rewrite fmap_app. apply NoDup_app. split_and!; [done| |done].
    intros k Hold Hnew. apply Hmem in Hnew as [_ Hnew]. apply Hnew.
    apply list_elem_of_fmap in Hold as (self & -> & Hself). by apply Hin.
  - intros self Hself. apply elem_of_app in Hself as [Hself|Hself].
    + apply elem_of_union_r. by apply Hin.
    + apply elem_of_union_l.
      by apply (Hmem (_key self)), list_elem_of_fmap_2.
Qed.

Lemma notifications_tracked (snaps : list snapshot) :
  ∀ st, keys_tracked st →
  ∃ st', notifications snaps st = (st', Ok ()) ∧ keys_tracked st'.
Proof.
  induction snaps as [|sensors rest IH]; intros st Hst.
  - by exists st.
  - destruct (new_data_received_tracked sensors st Hst) as (st1 & Hrun & Hst1).
    destruct (IH st1 Hst1) as (st' & Hrest & Hst').
    exists st'. split; [|done]. simpl.
    by rewrite (bind_Ok _ _ _ _ _ Hrun).
Qed.

(** C7. After the setup and any sequence of notifications, each
    returning normally, the adapters handed to the host have pairwise
    different keys, and the key of each is in [created]: no key is used to
    create two adapters.  The creation function puts the key into
    [created] before it returns the adapter, and hands nothing to the host
    itself, so the key is tracked before the adapter is registered. *)
Theorem one_adapter_per_key (sensors : snapshot) (snaps : list snapshot) :
  ∃ st0 st,
    async_setup_entry sensors = (st0, Ok ())
    ∧ notifications snaps st0 = (st, Ok ())
    ∧ NoDup (_key <$> adapters st)
    ∧ (∀ self, self ∈ adapters st → _key self ∈ created st)
    ∧ (∀ current k before,
         k ∈ created (_create_entity current k before).1
         ∧ added (_create_entity current k before).1 = added before).
Proof.
  clear parse_datetime timestamp.
  destruct (async_setup_entry_tracked sensors) as (st0 & Hsetup & Hst0).
  destruct (notifications_tracked snaps st0 Hst0) as (st & Hrun & Hnd & Hin).
  exists st0, st. split_and!; try done.
  intros current k before.
  unfold _create_entity, __init__, sensor_lookup.
  unfold mbind, prog_bind, modify, lift. simpl.
  destruct (current !! k); simpl; split; try done; set_solver.
Qed.

(* ===================================================================== *)
(** ** Further properties of the adapter's reads *)
(* ===================================================================== *)

Lemma SFcompare_refl (a : spec_float) :
  a ≠ S754_nan → SFcompare a a = Some Eq.
Proof.
  destruct a as [s|s| |s m e]; simpl; try done.
  - by destruct s.
  - intros _. rewrite Z.compare_refl.
    change (PosDef.Pos.compare_cont Eq m m) with (Pos.compare m m).
    rewrite Pos.compare_refl. by destruct s.
Qed.

(** A NaN is neither below nor above any float. *)
Lemma float_nan_unordered (x y : float) :
  PrimFloat.is_nan x = true →
  PrimFloat.ltb x y = false ∧ PrimFloat.ltb y x = false.
Proof.
  unfold PrimFloat.is_nan. rewrite FloatAxioms.eqb_spec, !ltb_spec.
  unfold SFeqb, SFltb. intros Hnan. apply negb_true_iff in Hnan.
  assert (Prim2SF x = S754_nan) as ->.
  { destruct (Prim2SF x) as [s|s| |s m e] eqn:Hx; [..|done|];
      by rewrite SFcompare_refl in Hnan. }
  split; [done|]. by destruct (Prim2SF y) as [[]|[]| |[]].
Qed.

(** Without the key in the snapshot a read raises [KeyError] at the
    lookup. *)
Lemma native_value_missing (sensors : snapshot) (self : IotaWattSensor)
    (trace : list event) :
  sensors !! _key self = None →
  native_value sensors self trace = (trace, Raise KeyError).
Proof.
  intros Hgone. unfold native_value, _sensor_data, sensor_lookup.
  unfold mbind, prog_bind, lift. by rewrite Hgone.
Qed.

(** X1. A number that a read returns is the transformed reading of the
    adapter's sensor and respects every bound the description has: it is
    not below the min and not above the max.  Nothing was logged by that
    read. *)
Theorem native_value_within_bounds (sensors : snapshot) (self : IotaWattSensor)
    (trace trace' : list event) (x : float) :
  native_value sensors self trace = (trace', Ok (PyFloat x)) →
  trace' = trace
  ∧ (∃ data,
       sensors !! _key self = Some data
       ∧ transformed (entity_description self) (getValue data)
         = Ok (PyFloat x))
  ∧ (∀ lo, min_value (entity_description self) = Some lo →
           PrimFloat.ltb x lo = false)
  ∧ (∀ hi, max_value (entity_description self) = Some hi →
           PrimFloat.ltb hi x = false).
Proof.
  destruct (sensors !! _key self) as [data|] eqn:Hkey;
    [|by rewrite native_value_missing].
  rewrite (native_value_unfold sensors self data trace Hkey).
  destruct (transformed (entity_description self) (getValue data))
    as [v|e] eqn:Hval; [|done].
  unfold checked.
  destruct (min_value (entity_description self)) as [lo|],
           (max_value (entity_description self)) as [hi|];
    destruct v as [|y|s]; simpl; try done;
    repeat match goal with
           | |- context [PrimFloat.ltb ?a ?b] =>
               destruct (PrimFloat.ltb a b) eqn:?
           end;
    intros [= <- <-]; split_and!; eauto; intros ? [= <-]; done.
Qed.

(** X2. A read adds at most one entry to the log, a warning, and only
    when it suppresses the value: whatever the snapshot and the adapter,
    either the log is unchanged, or it has one more warning and the read
    returned [None].  A read that raises has logged nothing. *)
Theorem native_value_log (sensors : snapshot) (self : IotaWattSensor)
    (trace : list event) :
  (native_value sensors self trace).1 = trace
  ∨ ∃ w,
      (native_value sensors self trace).1 = trace ++ [w]
      ∧ is_warning w = true
      ∧ (native_value sensors self trace).2 = Ok PyNone.
Proof.
  destruct (sensors !! _key self) as [data|] eqn:Hkey;
    [|left; by rewrite native_value_missing].
  rewrite (native_value_unfold sensors self data trace Hkey).
  destruct (transformed (entity_description self) (getValue data))
    as [v|e]; [|by left].
  unfold checked.
  destruct (min_value (entity_description self)) as [lo|];
    [destruct (py_lt v lo) as [[|]|]; [right; by eexists|..]; [|by left]|];
    (destruct (max_value (entity_description self)) as [hi|];
     [destruct (py_gt v hi) as [[|]|]; [right; by eexists|by left|by left]
     |by left]).
Qed.

(** X3. An adapter created for a unit the table does not list has no
    transform and no bounds: a read returns the sensor's reading as it is,
    whatever it is ([None], a string, any float), and logs nothing. *)
Theorem native_value_unknown_unit (sensors : snapshot) (self : IotaWattSensor)
    (data : Sensor) (unit : string) (trace : list event) :
  sensors !! _key self = Some data →
  unit ∉ table_keys →
  entity_description self = description_for unit →
  native_value sensors self trace = (trace, Ok (getValue data)).
Proof.
  intros Hkey Hunit Hdesc.
  rewrite (native_value_unfold sensors self data trace Hkey), Hdesc.
  unfold description_for. by rewrite (table_lookup_None unit Hunit).
Qed.

(** X4. A NaN passes the bounds check: when the transformed reading is a
    NaN the read returns it and logs nothing, whatever bounds the
    description has, because a NaN compares neither below nor above a
    bound. *)
Theorem native_value_nan (sensors : snapshot) (self : IotaWattSensor)
    (data : Sensor) (x : float) (trace : list event) :
  sensors !! _key self = Some data →
  transformed (entity_description self) (getValue data) = Ok (PyFloat x) →
  PrimFloat.is_nan x = true →
  native_value sensors self trace = (trace, Ok (PyFloat x)).
Proof.
  intros Hkey Hval Hnan.
  rewrite (native_value_unfold sensors self data trace Hkey), Hval.
  unfold checked.
  destruct (min_value (entity_description self)) as [lo|],
           (max_value (entity_description self)) as [hi|]; simpl;
    rewrite ?(proj1 (float_nan_unordered x _ Hnan)),
            ?(proj2 (float_nan_unordered x _ Hnan)); done.
Qed.

(** X5. Once the adapter's key has left the snapshot, each of its
    properties raises [KeyError] at the snapshot lookup: the value (with
    nothing logged), the name, the device info and the extra
    attributes. *)
Theorem reads_raise_when_key_gone (sensors : snapshot) (self : IotaWattSensor)
    (trace : list event) :
  sensors !! _key self = None →
  native_value sensors self trace = (trace, Raise KeyError)
  ∧ name sensors self = Raise KeyError
  ∧ device_info sensors self = Raise KeyError
  ∧ extra_state_attributes sensors self = Raise KeyError.
Proof.
  intros Hgone. split; [by apply native_value_missing|].
  unfold name, device_info, extra_state_attributes, _sensor_data,
    sensor_lookup.
  by rewrite Hgone.
Qed.

(** X6. A read does not look at the unit the sensor reports now: it uses
    the description bound when the adapter was created.  Two snapshots
    whose entries at the adapter's key agree on reading and name give the
    same result, whatever their units. *)
Theorem native_value_ignores_unit (sensors sensors' : snapshot)
    (self : IotaWattSensor) (data data' : Sensor) (trace : list event) :
  sensors !! _key self = Some data →
  sensors' !! _key self = Some data' →
  getValue data = getValue data' →
  getName data = getName data' →
  native_value sensors self trace = native_value sensors' self trace.
Proof.
  intros Hkey Hkey' Hval Hname.
  rewrite (native_value_unfold sensors self data trace Hkey),
          (native_value_unfold sensors' self data' trace Hkey').
  unfold checked. by rewrite Hval, Hname.
Qed.

(** The nine keys, one by one. *)
Ltac table_cases H :=
  unfold table_keys, table_entries in H; simpl in H;
  repeat (apply elem_of_cons in H as [->|H]);
  [..|by apply elem_of_nil in H].

(** Replace a lookup at a literal key by the entry found. *)
Ltac eval_description :=
  match goal with
  | |- context [description_for ?u] =>
      let d := eval vm_compute in (description_for u) in
      change (description_for u) with d
  end.

(** X7. For an adapter whose description comes from one of the nine table
    keys, a read with the key in the snapshot returns normally exactly when
    the sensor's reading is a number; on [None] and on a string it
    raises. *)
Theorem native_value_table_unit (sensors : snapshot) (self : IotaWattSensor)
    (data : Sensor) (unit : string) (trace : list event) :
  sensors !! _key self = Some data →
  unit ∈ table_keys →
  entity_description self = description_for unit →
  (∃ trace' r, native_value sensors self trace = (trace', Ok r))
  ↔ is_number (getValue data) = true.
Proof.
  intros Hkey Hunit Hdesc.
  rewrite (native_value_unfold sensors self data trace Hkey), Hdesc.
  table_cases Hunit; eval_description; unfold transformed, checked; simpl;
    (destruct (getValue data) as [|x|s]; simpl;
     (split; [intros (? & ? & [=]); done|intros; try done]);
     repeat match goal with
            | |- context [PrimFloat.ltb ?a ?b] => destruct (PrimFloat.ltb a b)
            end; eauto).
Qed.

(** X8. Whatever unit a sensor reports, the description the lookup
    returns is of one of two shapes.  For a table key, its [key] field is
    that unit and both bounds are set, with min <= 0 <= max, so a reading
    of zero is within the bounds of every listed unit.  For any other
    string it is the fallback description. *)
Theorem description_for_shape (unit : string) :
  (unit ∈ table_keys
   ∧ key (description_for unit) = unit
   ∧ ∃ lo hi,
       min_value (description_for unit) = Some lo
       ∧ max_value (description_for unit) = Some hi
       ∧ PrimFloat.leb lo 0%float = true
       ∧ PrimFloat.leb 0%float hi = true)
  ∨ ((unit ∉ table_keys)
     ∧ description_for unit = default_description "base_sensor").
Proof.
  destruct (decide (unit ∈ table_keys)) as [Hin|Hnot].
  - left. split; [done|].
    table_cases Hin; (split; [run|]); eval_description; simpl;
      eexists _, _; split_and!; try reflexivity; run.
  - right. split; [done|]. unfold description_for.
    by rewrite (table_lookup_None unit Hnot).
Qed.

(* ===================================================================== *)
(** ** Further properties of the update handler *)
(* ===================================================================== *)


Lemma handle_update_marker_ok (sensors : snapshot) (self : IotaWattSensor) :
  marker_ok self → marker_ok (_handle_coordinator_update sensors self).1.
Proof.
  intros Hok. unfold _handle_coordinator_update.
  destruct (sensors !! _key self) as [data|];
    [|by destruct (truthy (_attr_unique_id self))].
  destruct (getBegin data) as [begin|]; simpl; [|done].
  destruct (negb (String.eqb begin "")); simpl; [|done].
  destruct (parse_datetime begin) as [last_reset|]; simpl; [|done].
  by destruct (PrimFloat.ltb 86400 (timestamp last_reset)) eqn:Hts.
Qed.

Lemma coordinator_updates_marker_ok (snaps : list snapshot) :
  ∀ self, marker_ok self → marker_ok (coordinator_updates snaps self).1.
Proof.
  induction snaps as [|sensors rest IH]; intros self Hok; [done|].
  simpl.
  pose proof (handle_update_marker_ok sensors self Hok) as Hstep.
  destruct (_handle_coordinator_update sensors self) as [self' events].
  specialize (IH self' Hstep).
  by destruct (coordinator_updates rest self') as [self'' events'].
Qed.

(** X10. The last-reset marker never holds a timestamp within a day of
    the epoch.  An adapter starts with no marker, and after any sequence of
    notifications its marker is either unset or a datetime whose epoch
    value is strictly above 86400. *)
Theorem marker_never_placeholder (sensors : snapshot) (k : string)
    (description : IotaWattSensorEntityDescription) (self : IotaWattSensor)
    (snaps : list snapshot) :
  __init__ sensors k description = Ok self →
  _attr_last_reset self = None
  ∧ match _attr_last_reset (coordinator_updates snaps self).1 with
    | Some last_reset =>
        PrimFloat.ltb 86400%float (timestamp last_reset) = true
    | None => True
    end.
Proof.
  unfold __init__. destruct (sensor_lookup sensors k) as [data|]; [|done].
  intros [= <-]. split; [done|].
  by apply (coordinator_updates_marker_ok snaps).
Qed.

(** X11. Delivering the same snapshot again changes nothing more: the
    adapter after two notifications for a snapshot is the adapter after
    one, and the second makes the same call as the first. *)
Theorem handle_update_redelivery (sensors : snapshot) (self : IotaWattSensor) :
  _handle_coordinator_update sensors
    (_handle_coordinator_update sensors self).1
  = _handle_coordinator_update sensors self.
Proof.
  unfold _handle_coordinator_update.
  destruct (sensors !! _key self) as [data|] eqn:Hkey.
  - destruct (getBegin data) as [begin|] eqn:Hbegin; simpl;
      [|by rewrite Hkey, Hbegin].
    destruct (negb (String.eqb begin "")) eqn:Hne; simpl;
      [|by rewrite Hkey, Hbegin; simpl; rewrite Hne].
    destruct (parse_datetime begin) as [last_reset|] eqn:Hparse; simpl;
      [|by rewrite Hkey, Hbegin; simpl; rewrite Hne, Hparse].
    by destruct (PrimFloat.ltb 86400 (timestamp last_reset)) eqn:Hts; simpl;
      rewrite Hkey, Hbegin; simpl; rewrite Hne, Hparse, Hts.
  - destruct (truthy (_attr_unique_id self)) eqn:Huid; simpl;
      by rewrite Hkey, Huid.
Qed.

(* ===================================================================== *)
(** ** Attributes and device info *)
(* ===================================================================== *)

(** X12. With the key in the snapshot the extra attributes always hold
    the sensor's type under [type]; they hold the channel under [channel]
    exactly when the type is the string [Input], and nothing else. *)
Theorem extra_state_attributes_channel (sensors : snapshot)
    (self : IotaWattSensor) (data : Sensor) :
  sensors !! _key self = Some data →
  ∃ attrs,
    extra_state_attributes sensors self = Ok attrs
    ∧ attrs !! "type" = Some (getType data)
    ∧ (getType data = "Input" →
       attrs !! "channel" = Some (getChannel data)
       ∧ dom attrs = {["type"; "channel"]})
    ∧ (getType data ≠ "Input" →
       attrs !! "channel" = None ∧ dom attrs = {["type"]}).
Proof.
  intros Hkey.
  unfold extra_state_attributes, _sensor_data, sensor_lookup.
  rewrite Hkey. simpl. rewrite lookup_singleton_eq.
  destruct (String.eqb (getType data) "Input") eqn:Htype.
  - apply String.eqb_eq in Htype. eexists. split; [done|].
    split_and!.
    + by rewrite lookup_insert_ne, lookup_singleton_eq.
    + intros _. rewrite lookup_insert_eq. split; [done|].
      rewrite dom_insert_L, dom_singleton_L. set_solver.
    + done.
  - apply String.eqb_neq in Htype. eexists. split; [done|].
    split_and!.
    + by rewrite lookup_singleton_eq.
    + done.
    + intros _. rewrite lookup_singleton_ne by done.
      by rewrite dom_singleton_L.
Qed.

(** X13. The device info depends on the snapshot only through the hub
    address of the adapter's sensor: two adapters get the same device info
    exactly when their sensors report the same hub address, so the host
    groups the entities of one hub under one device. *)
Theorem device_info_by_hub (sensors sensors' : snapshot)
    (self self' : IotaWattSensor) (data data' : Sensor) :
  sensors !! _key self = Some data →
  sensors' !! _key self' = Some data' →
  device_info sensors self = device_info sensors' self'
  ↔ hub_mac_address data = hub_mac_address data'.
Proof.
  intros Hkey Hkey'.
  unfold device_info, _sensor_data, sensor_lookup. rewrite Hkey, Hkey'.
  split.
  - intros Heq.
    apply (f_equal (λ r, match r with
                         | Ok info => connections info
                         | Raise _ => ∅
                         end)) in Heq.
    simpl in Heq.
    assert ((CONNECTION_NETWORK_MAC, hub_mac_address data)
            ∈ ({[ (CONNECTION_NETWORK_MAC, hub_mac_address data') ]}
               : gset (connection_kind * string))) as Hin
      by (rewrite <- Heq; by apply elem_of_singleton).
    apply elem_of_singleton in Hin. by injection Hin.
  - by intros ->.
Qed.

(* ===================================================================== *)
(** ** Further properties of the entity factory *)
(* ===================================================================== *)

Lemma create_entity_adapter_of (sensors : snapshot) (k : string)
    (data : Sensor) (st : factory) :
  sensors !! k = Some data →
  _create_entity sensors k st = (created_add k st, Ok (adapter_of k data)).
Proof.
  intros Hdata. unfold _create_entity, __init__, sensor_lookup.
  unfold mbind, prog_bind, modify, lift. by rewrite Hdata.
Qed.

(** Whatever the guard, as long as it only reads the state, the adapters
    a comprehension over keys of the snapshot returns are those
    [__init__] builds from the snapshot. *)
Lemma comprehension_created_from (sensors : snapshot)
    (guard : string → prog factory bool) (ks : list string) :
  (∀ k st, ∃ b, guard k st = (st, Ok b)) →
  Forall (λ k, is_Some (sensors !! k)) ks →
  ∀ st, ∃ st' es,
    comprehension (_create_entity sensors) guard ks st = (st', Ok es)
    ∧ Forall (created_from sensors) es.
Proof.
  clear parse_datetime timestamp.
  intros Hguard. induction 1 as [|k ks [data Hk] _ IH]; intros st.
  - by exists st, [].
  - simpl. destruct (Hguard k st) as [b Hb].
    rewrite (bind_Ok _ _ _ _ _ Hb). destruct b; [|apply IH].
    rewrite (bind_Ok _ _ _ _ _ (create_entity_adapter_of sensors k data st Hk)).
    destruct (IH (created_add k st)) as (st' & es & Hrun & Hes).
    rewrite (bind_Ok _ _ _ _ _ Hrun). eexists _, _. split; [done|].
    constructor; [|done]. by exists data.
Qed.

(** X14. The setup hands the host one batch with exactly one adapter per
    sensor of the snapshot, and tracks exactly the snapshot's keys.  The
    adapter of a sensor has the sensor's key, the id the sensor reports as
    unique id, the description looked up for the sensor's unit, no
    last-reset marker and no entity id yet. *)
Theorem setup_one_adapter_per_sensor (sensors : snapshot) :
  ∃ st es,
    async_setup_entry sensors = (st, Ok ())
    ∧ added st = [es]
    ∧ created st = dom sensors
    ∧ length es = size sensors
    ∧ NoDup es
    ∧ ∀ self, self ∈ es
              ↔ ∃ k data, sensors !! k = Some data ∧ self = adapter_of k data.
Proof.
  clear parse_datetime timestamp.
  unfold async_setup_entry.
  destruct (comprehension_all sensors (keys sensors) (keys_Forall sensors)
              {| created := ∅; added := [] |})
    as (st' & es & Hrun & Hc & Ha & Hkeys).
  destruct (comprehension_created_from sensors (λ _, mret true) (keys sensors)
              ltac:(by eexists) (keys_Forall sensors)
              {| created := ∅; added := [] |})
    as (st'' & es' & Hrun' & Hfrom).
  rewrite Hrun in Hrun'. injection Hrun' as <- <-.
  eexists _, es. rewrite (bind_Ok _ _ _ _ _ Hrun).
  unfold async_add_entities, modify. simpl. rewrite Hc, Ha. simpl.
  assert (NoDup es) as Hnd.
  { apply (NoDup_fmap_1 _key). rewrite Hkeys. apply keys_NoDup. }
  split_and!; try done.
  - apply set_eq. intros k. rewrite <- keys_dom. set_solver.
  - rewrite <- (length_fmap _key), Hkeys. unfold keys.
    by rewrite length_fmap, length_map_to_list.
  - intros self. split.
    + intros Hself. rewrite Forall_forall in Hfrom.
      destruct (Hfrom self Hself) as (data & Hdata & Heq). eauto.
    + intros (k & data & Hdata & ->).
      assert (k ∈ _key <$> es) as Hin
        by (rewrite Hkeys; apply keys_lookup; eauto).
      apply list_elem_of_fmap in Hin as (self & Hk & Hself).
      rewrite Forall_forall in Hfrom.
      destruct (Hfrom self Hself) as (data' & Hdata' & Heq).
      rewrite <- Hk in Hdata'. rewrite Hdata in Hdata'.
      injection Hdata' as <-. by rewrite Hk, <- Heq.
Qed.

(** X15. A notification hands the host one batch: one adapter for each
    sensor of the snapshot whose key is not tracked yet, built from that
    snapshot (so its description is the one for the unit the sensor
    reports now), and none for a tracked key; afterwards the snapshot's
    keys are tracked as well.  It never raises. *)
Theorem new_data_received_batch (sensors : snapshot) (st : factory) :
  ∃ st' es,
    new_data_received sensors st = (st', Ok ())
    ∧ added st' = added st ++ [es]
    ∧ created st' = dom sensors ∪ created st
    ∧ NoDup es
    ∧ ∀ self, self ∈ es
              ↔ ∃ k data,
                  sensors !! k = Some data ∧ (k ∉ created st)
                  ∧ self = adapter_of k data.
Proof.
  clear parse_datetime timestamp.
  destruct (new_data_received_run sensors st) as (es & Hrun & Hnd & Hmem).
  destruct (comprehension_created_from sensors not_in_created (keys sensors)
              ltac:(by eexists) (keys_Forall sensors) st)
    as (st1 & es' & Hrun' & Hfrom).
  assert (es' = es) as ->.
  { unfold new_data_received in Hrun.
    rewrite (bind_Ok _ _ _ _ _ Hrun') in Hrun.
    unfold async_add_entities, modify in Hrun.
    injection Hrun as _ Hadded. by apply app_inj_tail in Hadded as [_ [= ->]]. }
  rewrite Forall_forall in Hfrom.
  eexists _, es. split; [exact Hrun|]. simpl.
  split_and!; try done.
  - by apply (NoDup_fmap_1 _key).
  - intros self. split.
    + intros Hself. destruct (Hfrom self Hself) as (data & Hdata & Heq).
      exists (_key self), data. split_and!; try done.
      by apply (Hmem (_key self)), list_elem_of_fmap_2.
    + intros (k & data & Hdata & Hnew & ->).
      assert (k ∈ _key <$> es) as Hin
        by (apply Hmem; split; [apply elem_of_dom; eauto|done]).
      apply list_elem_of_fmap in Hin as (self & Hk & Hself).
      destruct (Hfrom self Hself) as (data' & Hdata' & Heq).
      rewrite <- Hk in Hdata'. rewrite Hdata in Hdata'.
      injection Hdata' as <-. by rewrite Hk, <- Heq.
Qed.

(** X16. A tracked key is never given another adapter, and tracking only
    grows: after any sequence of notifications, each returning normally,
    every key tracked before is still tracked, and every adapter with a key
    that was tracked before was already handed to the host before.  So a
    sensor whose key leaves the snapshot and comes back gets no new
    adapter. *)
Theorem tracked_key_never_recreated (snaps : list snapshot) (st : factory) :
  ∃ st',
    notifications snaps st = (st', Ok ())
    ∧ created st ⊆ created st'
    ∧ ∀ self, self ∈ adapters st' → _key self ∈ created st →
              self ∈ adapters st.
Proof.
  clear parse_datetime timestamp.
  revert st. induction snaps as [|sensors rest IH]; intros st.
  - by exists st.
  - destruct (new_data_received_run sensors st) as (es & Hrun & _ & Hmem).
    destruct (IH {| created := dom sensors ∪ created st;
                    added := added st ++ [es] |})
      as (st' & Hrest & Hsub & Hold).
    exists st'. simpl. rewrite (bind_Ok _ _ _ _ _ Hrun).
    split; [exact Hrest|]. simpl in Hsub, Hold. split; [set_solver|].
    intros self Hself Hk.
    specialize (Hold self Hself ltac:(set_solver)).
    unfold adapters in Hold |- *. simpl in Hold.
    rewrite concat_app in Hold. simpl in Hold. rewrite app_nil_r in Hold.
    apply elem_of_app in Hold as [Hold|Hnew]; [done|].
    exfalso. by apply (Hmem (_key self)); [apply list_elem_of_fmap_2|].
Qed.

Lemma notifications_created (snaps : list snapshot) :
  ∀ st, keys_tracked st →
        list_to_set (_key <$> adapters st) = created st →
  ∃ st',
    notifications snaps st = (st', Ok ())
    ∧ keys_tracked st'
    ∧ list_to_set (_key <$> adapters st') = created st'
    ∧ created st' = ⋃ (dom <$> snaps) ∪ created st.
Proof.
  clear parse_datetime timestamp.
  induction snaps as [|sensors rest IH]; intros st Hst Hset.
  - exists st. split_and!; try done. simpl. set_solver.
  - destruct (new_data_received_run sensors st) as (es & Hrun & Hnd & Hmem).
    destruct (new_data_received_tracked sensors st Hst)
      as (st1 & Hrun1 & Hst1).
    rewrite Hrun in Hrun1. injection Hrun1 as <-.
    destruct (IH _ Hst1) as (st' & Hrest & Hst' & Hset' & Hc).
    { unfold adapters in *. simpl.
      rewrite concat_app, fmap_app. simpl. rewrite app_nil_r.
      rewrite list_to_set_app_L, Hset.
      apply set_eq. intros k.
      rewrite !elem_of_union, elem_of_list_to_set, Hmem.
      destruct (decide (k ∈ created st)); set_solver. }
    exists st'. simpl. rewrite (bind_Ok _ _ _ _ _ Hrun).
    split_and!; try done. rewrite Hc. simpl. set_solver.
Qed.

(** X17. After the setup and any sequence of notifications the factory
    tracks exactly the keys seen in the setup snapshot or in any
    notification's snapshot, the keys of the adapters handed to the host
    are exactly the tracked keys, and the host has received as many
    adapters as keys are tracked: one adapter for every key ever seen. *)
Theorem adapters_match_created (sensors : snapshot) (snaps : list snapshot) :
  ∃ st0 st,
    async_setup_entry sensors = (st0, Ok ())
    ∧ notifications snaps st0 = (st, Ok ())
    ∧ created st = ⋃ (dom <$> (sensors :: snaps))
    ∧ list_to_set (_key <$> adapters st) = created st
    ∧ length (adapters st) = size (created st).
Proof.
  clear parse_datetime timestamp.
  destruct (async_setup_entry_tracked sensors) as (st0 & Hsetup & Hst0).
  assert (created st0 = dom sensors
          ∧ list_to_set (_key <$> adapters st0) = created st0) as [Hc0 Hset0].
  { unfold async_setup_entry in Hsetup.
    destruct (comprehension_all sensors (keys sensors) (keys_Forall sensors)
                {| created := ∅; added := [] |})
      as (st' & es & Hrun & Hc & Ha & Hkeys).
    rewrite (bind_Ok _ _ _ _ _ Hrun) in Hsetup.
    unfold async_add_entities, modify in Hsetup. injection Hsetup as <-.
    unfold adapters. simpl. rewrite Ha. simpl. rewrite app_nil_r, Hkeys, Hc.
    assert (list_to_set (keys sensors) = dom sensors :> gset string) as ->.
    { apply set_eq. intros k. by rewrite elem_of_list_to_set, keys_dom. }
    split; set_solver. }
  destruct (notifications_created snaps st0 Hst0 Hset0)
    as (st & Hrun & [Hnd Hin] & Hset & Hc).
  exists st0, st. split_and!; try done.
  - rewrite Hc, Hc0. simpl. set_solver.
  - rewrite <- Hset, <- (length_fmap _key).
    symmetry. by apply size_list_to_set.
Qed.

End Platform.

(* ===================================================================== *)
(** ** The properties on concrete sensors *)
(* ===================================================================== *)

(** The Amps bounds are inclusive: -1000 and 1000 are reported, -1000.01
    and 1000.01 are suppressed with one warning each. *)
Lemma native_value_bounds_witness :
  let self := demo_adapter (datetime := float) (Some "iw-1") "Amps" None in
  let sensors x := demo_snapshot (Some "iw-1") "Amps" (PyFloat x) None in
  native_value (sensors (-1000)%float) self [] = ([], Ok (PyFloat (-1000)%float))
  ∧ native_value (sensors 1000%float) self [] = ([], Ok (PyFloat 1000%float))
  ∧ (∃ which,
       native_value (sensors (-1000.01)%float) self []
       = ([] ++ [Warning (PyFloat (-1000.01)%float) "Main" which], Ok PyNone))
  ∧ (∃ which,
       native_value (sensors 1000.01%float) self []
       = ([] ++ [Warning (PyFloat 1000.01%float) "Main" which], Ok PyNone)).
Proof.
  cbv zeta.
  pose (self := demo_adapter (datetime := float) (Some "iw-1") "Amps" None).
  pose (data x := demo_sensor (Some "iw-1") "Amps" (PyFloat x) None).
  pose (sensors x := demo_snapshot (Some "iw-1") "Amps" (PyFloat x) None).
  split_and!.
  - apply (proj1 (native_value_bounds (sensors (-1000)%float) self
                    (data (-1000)%float) (-1000)%float (-1000)%float
                    1000%float [] ltac:(run) ltac:(run) ltac:(run) ltac:(run)));
      run.
  - apply (proj1 (native_value_bounds (sensors 1000%float) self
                    (data 1000%float) 1000%float (-1000)%float
                    1000%float [] ltac:(run) ltac:(run) ltac:(run) ltac:(run)));
      run.
  - apply (proj2 (native_value_bounds (sensors (-1000.01)%float) self
                    (data (-1000.01)%float) (-1000.01)%float (-1000)%float
                    1000%float [] ltac:(run) ltac:(run) ltac:(run) ltac:(run))).
    left. run.
  - apply (proj2 (native_value_bounds (sensors 1000.01%float) self
                    (data 1000.01%float) 1000.01%float (-1000)%float
                    1000%float [] ltac:(run) ltac:(run) ltac:(run) ltac:(run))).
    right. run.
Defined.

(** A unit the table does not list gets the fallback description. *)
Lemma description_for_table_witness :
("kWh" ∉ table_keys)
  ∧ description_for "kWh" = default_description "base_sensor".
Proof.
  assert ("kWh" ∉ table_keys) as Hnot.
  { apply (bool_decide_unpack _). vm_compute. exact I. }
  split; [exact Hnot|].
  destruct (description_for_table "kWh") as (_ & _ & _ & _ & Hfallback & _).
  exact (Hfallback Hnot).
Defined.

(** Power factor: 0.5 reads 50, 1.0 reads 100, 1.2 is suppressed. *)
Lemma native_value_power_factor_witness :
  let self := demo_adapter (datetime := float) (Some "iw-1") "PF" None in
  let sensors x := demo_snapshot (Some "iw-1") "PF" (PyFloat x) None in
  native_value (sensors 0.5%float) self [] = ([], Ok (PyFloat 50%float))
  ∧ native_value (sensors 1%float) self [] = ([], Ok (PyFloat 100%float))
  ∧ native_value (sensors 1.2%float) self []
    = ([Warning (PyFloat 120%float) "Main" AboveMaximum], Ok PyNone).
Proof.
  cbv zeta.
  pose (self := demo_adapter (datetime := float) (Some "iw-1") "PF" None).
  pose (data x := demo_sensor (Some "iw-1") "PF" (PyFloat x) None).
  pose (sensors x := demo_snapshot (Some "iw-1") "PF" (PyFloat x) None).
  split_and!.
  - destruct (native_value_power_factor (sensors 0.5%float) self
                (data 0.5%float) 0.5%float [] ltac:(run) ltac:(run) ltac:(run))
      as (_ & Hhalf & _ & _).
    exact (Hhalf eq_refl).
  - destruct (native_value_power_factor (sensors 1%float) self
                (data 1%float) 1%float [] ltac:(run) ltac:(run) ltac:(run))
      as (_ & _ & Hone & _).
    exact (Hone eq_refl).
  - destruct (native_value_power_factor (sensors 1.2%float) self
                (data 1.2%float) 1.2%float [] ltac:(run) ltac:(run) ltac:(run))
      as (_ & _ & _ & Hover).
    exact (proj2 (proj2 (Hover eq_refl))).
Defined.

(** A reading of [None] under the Amps bounds raises [TypeError]; so does
    a string reading under the PF transform and bounds. *)
Lemma native_value_numeric_only_witness :
  native_value (demo_snapshot (Some "iw-1") "Amps" PyNone None)
    (demo_adapter (datetime := float) (Some "iw-1") "Amps" None) []
  = ([], Raise TypeError)
  ∧ native_value (demo_snapshot (Some "iw-1") "PF" (PyStr "ab") None)
      (demo_adapter (datetime := float) (Some "iw-1") "PF" None) []
    = ([], Raise TypeError).
Proof.
  split.
  - apply (proj1 (native_value_numeric_only
                    (demo_snapshot (Some "iw-1") "Amps" PyNone None)
                    (demo_adapter (datetime := float) (Some "iw-1") "Amps" None)
                    (demo_sensor (Some "iw-1") "Amps" PyNone None)
                    PyNone [] ltac:(run) ltac:(run))).
    + reflexivity.
    + left. eexists. run.
  - apply (proj1 (native_value_numeric_only
                    (demo_snapshot (Some "iw-1") "PF" (PyStr "ab") None)
                    (demo_adapter (datetime := float) (Some "iw-1") "PF" None)
                    (demo_sensor (Some "iw-1") "PF" (PyStr "ab") None)
                    (PyStr (str_repeat "ab" 100)) []
                    ltac:(run) ltac:(run))).
    + reflexivity.
    + right. eexists. run.
Defined.




(** With the key gone, an adapter with a unique id asks the registry to
    remove its entity id, and does nothing else. *)
Lemma handle_update_key_gone_witness :
  let self := demo_adapter (Some "iw-1") "Amps" (Some 1609459200%float) in
  _handle_coordinator_update demo_parse_datetime demo_timestamp no_sensors self
  = (self, [RegistryRemove (Some "sensor.main")]).
Proof.
  cbv zeta.
  destruct (handle_update_key_gone demo_parse_datetime demo_timestamp
              no_sensors
              (demo_adapter (Some "iw-1") "Amps" (Some 1609459200%float))
              ltac:(run))
    as (removal & Heq & _ & _ & Hregistry & _).
  rewrite Heq, (Hregistry ltac:(run)). reflexivity.
Defined.

(** A sensor that reports the empty string as its id: the adapter's
    unique id is the empty string, and when the key goes the adapter takes
    the self-removal path. *)
Lemma removal_by_truthiness_witness :
  let sensors := demo_snapshot (Some "") "Amps" (PyFloat 1%float) None in
  ∃ self : IotaWattSensor (datetime := float),
    __init__ sensors "input_1" (description_for "Amps") = Ok self
    ∧ _attr_unique_id self = Some ""
    ∧ _handle_coordinator_update demo_parse_datetime demo_timestamp no_sensors self
      = (self, [RemoveTask]).
Proof.
  cbv zeta.
  destruct (removal_by_truthiness demo_parse_datetime demo_timestamp
              (demo_snapshot (Some "") "Amps" (PyFloat 1%float) None)
              no_sensors "input_1" (description_for "Amps")
              (demo_sensor (Some "") "Amps" (PyFloat 1%float) None)
              ltac:(run))
    as (self & Hinit & Hkey & Huid & Hgone).
  exists self. split; [exact Hinit|]. split; [exact Huid|].
  apply Hgone; [right; reflexivity|run|reflexivity|reflexivity].
Defined.

(** Two snapshots with the key [input_1] and different readings: the
    second notification adds an empty batch. *)
Lemma new_data_received_idempotent_witness :
  let sensors := demo_snapshot (Some "iw-1") "Amps" (PyFloat 1%float) None in
  let sensors' := demo_snapshot (Some "iw-1") "Amps" (PyFloat 2%float) None in
  let st : factory (datetime := float) := {| created := ∅; added := [] |} in
  ∃ st1 es,
    new_data_received sensors st = (st1, Ok ())
    ∧ added st1 = added st ++ [es]
    ∧ (∀ k, k ∈ _key <$> es ↔ k ∈ dom sensors ∧ k ∉ created st)
    ∧ new_data_received sensors' st1
      = ({| created := created st1; added := added st1 ++ [[]] |}, Ok ())
    ∧ adapters (new_data_received sensors' st1).1 = adapters st1.
Proof.
  cbv zeta.
  apply (new_data_received_idempotent
           (demo_snapshot (Some "iw-1") "Amps" (PyFloat 1%float) None)
           (demo_snapshot (Some "iw-1") "Amps" (PyFloat 2%float) None)).
  run.
Defined.

(** A key that leaves the snapshot and comes back is not created again:
    after the setup and two notifications the host holds one adapter. *)
Example one_adapter_after_reappearance :
  let sensors := demo_snapshot (Some "iw-1") "Amps" (PyFloat 1%float) None in
  let st0 := (async_setup_entry (datetime := float) sensors).1 in
  _key <$> adapters (notifications [no_sensors; sensors] st0).1 = ["input_1"].
Proof. run. Qed.

(* ===================================================================== *)
(** ** The further properties on concrete sensors *)
(* ===================================================================== *)

(** 500 A is returned, and lies within the Amps bounds. *)
Lemma native_value_within_bounds_witness :
  let self := demo_adapter (datetime := float) (Some "iw-1") "Amps" None in
  let sensors := demo_snapshot (Some "iw-1") "Amps" (PyFloat 500%float) None in
  native_value sensors self [] = ([], Ok (PyFloat 500%float))
  ∧ PrimFloat.ltb 500%float (-1000)%float = false
  ∧ PrimFloat.ltb 1000%float 500%float = false.
Proof.
  cbv zeta.
  pose (self := demo_adapter (datetime := float) (Some "iw-1") "Amps" None).
  pose (sensors := demo_snapshot (Some "iw-1") "Amps" (PyFloat 500%float) None).
  assert (native_value sensors self [] = ([], Ok (PyFloat 500%float))) as Hread
    by run.
  destruct (native_value_within_bounds sensors self [] [] 500%float Hread)
    as (_ & _ & Hlo & Hhi).
  split; [exact Hread|]. split; [apply Hlo|apply Hhi]; run.
Defined.

(** A sensor reporting the unlisted unit kWh: its string reading is
    returned as it is. *)
Lemma native_value_unknown_unit_witness :
  native_value (demo_snapshot (Some "iw-1") "kWh" (PyStr "n/a") None)
    (demo_adapter (datetime := float) (Some "iw-1") "kWh" None) []
  = ([], Ok (PyStr "n/a")).
Proof.
  apply (native_value_unknown_unit
           (demo_snapshot (Some "iw-1") "kWh" (PyStr "n/a") None)
           (demo_adapter (datetime := float) (Some "iw-1") "kWh" None)
           (demo_sensor (Some "iw-1") "kWh" (PyStr "n/a") None) "kWh" []).
  - run.
  - apply (bool_decide_unpack _). vm_compute. exact I.
  - reflexivity.
Defined.

(** A NaN reading under the Amps bounds is returned. *)
Lemma native_value_nan_witness :
  native_value (demo_snapshot (Some "iw-1") "Amps" (PyFloat PrimFloat.nan) None)
    (demo_adapter (datetime := float) (Some "iw-1") "Amps" None) []
  = ([], Ok (PyFloat PrimFloat.nan)).
Proof.
  apply (native_value_nan
           (demo_snapshot (Some "iw-1") "Amps" (PyFloat PrimFloat.nan) None)
           (demo_adapter (datetime := float) (Some "iw-1") "Amps" None)
           (demo_sensor (Some "iw-1") "Amps" (PyFloat PrimFloat.nan) None)
           PrimFloat.nan []); run.
Defined.

(** Every read of an adapter whose key is gone raises [KeyError]. *)
Lemma reads_raise_when_key_gone_witness :
  let self := demo_adapter (datetime := float) (Some "iw-1") "Amps" None in
  native_value no_sensors self [] = ([], Raise KeyError)
  ∧ name no_sensors self = Raise KeyError
  ∧ device_info no_sensors self = Raise KeyError
  ∧ extra_state_attributes no_sensors self = Raise KeyError.
Proof.
  cbv zeta.
  apply (reads_raise_when_key_gone no_sensors
           (demo_adapter (datetime := float) (Some "iw-1") "Amps" None) []).
  run.
Defined.

(** An adapter created while the sensor reported Amps keeps the Amps
    bounds when the sensor reports Watts: 5000 is suppressed either way. *)
Lemma native_value_ignores_unit_witness :
  let self := demo_adapter (datetime := float) (Some "iw-1") "Amps" None in
  let sensors unit :=
    demo_snapshot (Some "iw-1") unit (PyFloat 5000%float) None in
  native_value (sensors "Amps") self [] = native_value (sensors "Watts") self [].
Proof.
  cbv zeta.
  apply (native_value_ignores_unit
           (demo_snapshot (Some "iw-1") "Amps" (PyFloat 5000%float) None)
           (demo_snapshot (Some "iw-1") "Watts" (PyFloat 5000%float) None)
           (demo_adapter (datetime := float) (Some "iw-1") "Amps" None)
           (demo_sensor (Some "iw-1") "Amps" (PyFloat 5000%float) None)
           (demo_sensor (Some "iw-1") "Watts" (PyFloat 5000%float) None) []);
    run.
Defined.

(** A Watts adapter returns normally on the number 5. *)
Lemma native_value_table_unit_witness :
  ∃ trace' r,
    native_value (demo_snapshot (Some "iw-1") "Watts" (PyFloat 5%float) None)
      (demo_adapter (datetime := float) (Some "iw-1") "Watts" None) []
    = (trace', Ok r).
Proof.
  apply (native_value_table_unit
           (demo_snapshot (Some "iw-1") "Watts" (PyFloat 5%float) None)
           (demo_adapter (datetime := float) (Some "iw-1") "Watts" None)
           (demo_sensor (Some "iw-1") "Watts" (PyFloat 5%float) None)
           "Watts" []).
  - run.
  - apply (bool_decide_unpack _). vm_compute. exact I.
  - reflexivity.
  - reflexivity.
Defined.

(** Three notifications, with begin-timestamps in 2021, one day after the
    epoch, and missing: the marker ends unset. *)
Lemma marker_never_placeholder_witness :
  let sensors begin :=
    demo_snapshot (Some "iw-1") "WattHours" (PyFloat 12%float) begin in
  let self := adapter_of (datetime := float) "input_1"
                (demo_sensor (Some "iw-1") "WattHours" (PyFloat 12%float) None) in
  _attr_last_reset self = None
  ∧ match
      _attr_last_reset
        (coordinator_updates demo_parse_datetime demo_timestamp
           [sensors (Some year_2021); sensors (Some day_two); sensors None]
           self).1
    with
    | Some last_reset =>
        PrimFloat.ltb 86400%float (demo_timestamp last_reset) = true
    | None => True
    end.
Proof.
  cbv zeta.
  apply (marker_never_placeholder demo_parse_datetime demo_timestamp
           (demo_snapshot (Some "iw-1") "WattHours" (PyFloat 12%float) None)
           "input_1" (description_for "WattHours")).
  run.
Defined.

(** The demo sensor is an input on channel 1. *)
Lemma extra_state_attributes_channel_witness :
  ∃ attrs,
    extra_state_attributes
      (demo_snapshot (Some "iw-1") "Amps" (PyFloat 1%float) None)
      (demo_adapter (datetime := float) (Some "iw-1") "Amps" None)
    = Ok attrs
    ∧ attrs !! "type" = Some "Input"
    ∧ attrs !! "channel" = Some "1".
Proof.
  destruct (extra_state_attributes_channel
              (demo_snapshot (Some "iw-1") "Amps" (PyFloat 1%float) None)
              (demo_adapter (datetime := float) (Some "iw-1") "Amps" None)
              (demo_sensor (Some "iw-1") "Amps" (PyFloat 1%float) None)
              ltac:(run))
    as (attrs & Hattrs & Htype & Hinput & _).
  exists attrs. split; [exact Hattrs|]. split; [exact Htype|].
  exact (proj1 (Hinput eq_refl)).
Defined.

(** Two sensors of the demo hub get the same device info. *)
Lemma device_info_by_hub_witness :
  device_info (demo_snapshot (Some "iw-1") "Amps" (PyFloat 1%float) None)
    (demo_adapter (datetime := float) (Some "iw-1") "Amps" None)
  = device_info (demo_snapshot (Some "iw-2") "Volts" (PyFloat 230%float) None)
      (demo_adapter (datetime := float) (Some "iw-2") "Volts" None).
Proof.
  apply (device_info_by_hub
           (demo_snapshot (Some "iw-1") "Amps" (PyFloat 1%float) None)
           (demo_snapshot (Some "iw-2") "Volts" (PyFloat 230%float) None)
           (demo_adapter (datetime := float) (Some "iw-1") "Amps" None)
           (demo_adapter (datetime := float) (Some "iw-2") "Volts" None)
           (demo_sensor (Some "iw-1") "Amps" (PyFloat 1%float) None)
           (demo_sensor (Some "iw-2") "Volts" (PyFloat 230%float) None)
           ltac:(run) ltac:(run)).
  reflexivity.
Defined.
